(** * Brute-force optimisation by exhaustive scanning (main.py)

    A shallow embedding of the three functions of [main.py]:

    - [maquina_turing_discreta]: the linear scan over a finite sequence of
      candidates;
    - [maquina_turing_continua]: the discretised scan over an interval, with
      optional refinement rounds;
    - [maquina_turing]: the dispatcher on the [tipo] string.

    Numbers are modelled in exact arithmetic: a finite Python number is a
    rational ([Q]), and the objective's value is a [pyfloat], a rational or
    one of the three special floats the scan can meet ([-inf], [inf], [nan]).
    Effects are explicit: a computation carries the list of the arguments the
    objective function was called on, in call order, and either returns or
    raises. *)

From Stdlib Require Import QArith Qround Lqa ZArith List Lia.
From stdpp Require Import base option list strings gmap.

Local Open Scope Q_scope.

(** ** Python values *)

(** The value of the objective function: a finite number, or one of the
    special floats. [float('-inf')] and [float('inf')] are the initial values
    of the running best. *)
Inductive pyfloat : Type :=
| NegInf
| Fin (q : Q)
| PosInf
| NaN.

(** [Qltb x y] is the test [x < y] on finite numbers. *)
Definition Qltb (x y : Q) : bool := negb (Qle_bool y x).

(** [flt u v] is Python's [u < v] on floats: every comparison with [nan] is
    false, [-inf] is below and [inf] above every finite number. *)
Definition flt (u v : pyfloat) : bool :=
  match u, v with
  | NaN, _ | _, NaN => false
  | _, NegInf => false
  | NegInf, _ => true
  | PosInf, _ => false
  | Fin _, PosInf => true
  | Fin p, Fin q => Qltb p q
  end.

(** Python's [u > v]. *)
Definition fgt (u v : pyfloat) : bool := flt v u.

(** The exceptions the three functions can raise. *)
Inductive exn : Type :=
| ValueError
| TypeError
| UnboundLocalError
| ZeroDivisionError.

Inductive result (A : Type) : Type :=
| Return (a : A)
| Raise (e : exn).
Arguments Return {A} a.
Arguments Raise {A} e.

(** ** Computations that call the objective function

    [comp X A] is a computation over candidates of type [X]: the arguments
    the objective function was evaluated on, oldest first, and the outcome.
    Nothing is evaluated after an exception. *)
Definition comp (X A : Type) : Type := (list X * result A)%type.

Definition evaluaciones {X A} (c : comp X A) : list X := fst c.
Definition resultado {X A} (c : comp X A) : result A := snd c.

Definition ret {X A} (a : A) : comp X A := ([], Return a).
Definition raise {X A} (e : exn) : comp X A := ([], Raise e).

Definition bind {X A B} (c : comp X A) (k : A -> comp X B) : comp X B :=
  match c with
  | (l, Return a) => let '(l', r) := k a in (l ++ l', r)
  | (l, Raise e) => (l, Raise e)
  end.

#[global] Instance comp_ret {X} : MRet (comp X) := fun A => @ret X A.
#[global] Instance comp_bind {X} : MBind (comp X) := fun A B k c => bind c k.

(** One call [func(x)]. The objective is a pure total mapping. *)
Definition call {X} (func : X -> pyfloat) (x : X) : comp X pyfloat :=
  ([x], Return (func x)).

(** ** The discrete scanner *)

Section Discreta.
Context {X : Type}.
Variable func : X -> pyfloat.
Variable maximizar : bool.

(** The test of line 16:
    [(maximizar and f_x > f_opt) or (not maximizar and f_x < f_opt)]. *)
Definition mejora (f_x f_opt : pyfloat) : bool :=
  (maximizar && fgt f_x f_opt) || (negb maximizar && flt f_x f_opt).

(** The [for x in dominio] loop, with the two variables it assigns. *)
Fixpoint recorrer (dominio : list X) (x_opt : option X) (f_opt : pyfloat)
  : comp X (option X * pyfloat) :=
  match dominio with
  | [] => mret (x_opt, f_opt)
  | x :: resto =>
      f_x ← call func x;
      if mejora f_x f_opt
      then recorrer resto (Some x) f_x
      else recorrer resto x_opt f_opt
  end.

(** The initial [f_opt] of line 12. *)
Definition centinela : pyfloat := if maximizar then NegInf else PosInf.

Definition maquina_turing_discreta (dominio : list X)
  : comp X (option X * pyfloat) :=
  recorrer dominio None centinela.
End Discreta.

(** ** The continuous refiner *)

(** A candidate as the objective function receives it: a number, or a string
    (a string domain iterates to its one-character strings). *)
Inductive cand : Type :=
| CNum (q : Q)
| CStr (s : string).

(** Python's two-argument [max] and [min]: the first argument is kept unless
    the second is strictly greater (resp. smaller). *)
Definition py_max (x y : Q) : Q := if Qltb x y then y else x.
Definition py_min (x y : Q) : Q := if Qltb y x then y else x.

(** [x_opt - delta_x] and [x_opt + delta_x]: a [TypeError] when [x_opt] is
    [None] (or not a number). *)
Definition restar (x_opt : option cand) (d : Q) : result Q :=
  match x_opt with
  | Some (CNum x) => Return (x - d)
  | _ => Raise TypeError
  end.

Definition sumar (x_opt : option cand) (d : Q) : result Q :=
  match x_opt with
  | Some (CNum x) => Return (x + d)
  | _ => Raise TypeError
  end.

(** A step that evaluates nothing. *)
Definition puro {X A} (r : result A) : comp X A := ([], r).

(** Modelled from the spec: the length of [np.arange(start, stop, step)].
    [np.arange] is numpy's and not part of the repository; the sequence
    generation is half-open in its end bound, so it has
    [ceil((stop - start) / step)] values, none when that count is not
    positive. *)
Definition arange_len (start stop step : Q) : nat :=
  Z.to_nat (Qceiling ((stop - start) / step)).

(** Modelled from the spec: the values of [np.arange(start, stop, step)],
    [start], [start + step], [start + 2 step], ..., in exact arithmetic. *)
Definition arange_values (start stop step : Q) : list Q :=
  map (fun i : nat => start + inject_Z (Z.of_nat i) * step)
      (seq 0 (arange_len start stop step)).

(** Modelled from the spec: the call [np.arange(start, stop, step)]; numpy
    rejects a zero step. *)
Definition np_arange (start stop step : Q) : result (list Q) :=
  if Qeq_bool step 0 then Raise ZeroDivisionError
  else Return (arange_values start stop step).

(** The variables of [maquina_turing_continua] that the loop assigns.
    [ultimo] is the pair [(x_opt, f_opt)], unbound before the first round. *)
Record estado : Type := Estado {
  st_a : Q;
  st_b : Q;
  st_delta_x : Q;
  ultimo : option (option cand * pyfloat)
}.

Section Continua.
Variable func : cand -> pyfloat.
Variable maximizar : bool.
Variable refinamiento : bool.

(** One pass through the body of the [for] loop (lines 36-43). *)
Definition ronda (st : estado) : comp cand estado :=
  let a := st_a st in
  let b := st_b st in
  let delta_x := st_delta_x st in
  x_values ← puro (np_arange a (b + delta_x) delta_x);
  r ← maquina_turing_discreta func maximizar (map CNum x_values);
  let x_opt := fst r in
  if refinamiento then
    lo ← puro (restar x_opt delta_x);
    let a := py_max a lo in
    hi ← puro (sumar x_opt delta_x);
    let b := py_min b hi in
    let delta_x := delta_x / 2 in
    mret (Estado a b delta_x (Some r))
  else
    mret (Estado a b delta_x (Some r)).

(** [n] passes, stopping at the first exception. *)
Fixpoint rondas (n : nat) (st : estado) : comp cand estado :=
  match n with
  | O => mret st
  | S n' => st' ← ronda st; rondas n' st'
  end.

(** [range(iteraciones)] is empty for [iteraciones <= 0]; the [return] of
    line 45 reads [x_opt] and [f_opt], which only a round binds. *)
Definition maquina_turing_continua (a b delta_x : Q) (iteraciones : Z)
  : comp cand (option cand * pyfloat) :=
  st ← rondas (Z.to_nat iteraciones) (Estado a b delta_x None);
  match ultimo st with
  | Some r => mret r
  | None => raise UnboundLocalError
  end.
End Continua.

(** ** The dispatcher *)

(** The [dominio] argument, as far as the dispatcher and the scan look at
    it. *)
Inductive pyobj : Type :=
| Lista (xs : list Q)      (* a list, range or array of numbers *)
| Tupla (xs : list Q)      (* a tuple of numbers, of any length *)
| Cadena (s : string)      (* a string *)
| Escalar (q : Q).         (* a bare number: neither a tuple nor iterable *)

(** A value of the keyword-argument dictionary. *)
Inductive pyval : Type :=
| VBool (b : bool)
| VInt (z : Z)
| VFloat (q : Q).

(** Truth value of an option ([if maximizar], [if refinamiento]). *)
Definition verdad (v : pyval) : bool :=
  match v with
  | VBool b => b
  | VInt z => negb (Z.eqb z 0)
  | VFloat q => negb (Qeq_bool q 0)
  end.

(** An option used as a number ([delta_x]); [True] is 1 and [False] is 0. *)
Definition numero (v : pyval) : Q :=
  match v with
  | VBool b => if b then 1 else 0
  | VInt z => inject_Z z
  | VFloat q => q
  end.

(** An option used as the argument of [range]: a float is refused. *)
Definition indice (v : pyval) : result Z :=
  match v with
  | VBool b => Return (if b then 1 else 0)%Z
  | VInt z => Return z
  | VFloat _ => Raise TypeError
  end.

(** [for x in dominio]: the candidates an object iterates to. *)
Definition iterar (dominio : pyobj) : result (list cand) :=
  match dominio with
  | Lista xs => Return (map CNum xs)
  | Tupla xs => Return (map CNum xs)
  | Cadena s =>
      Return (map (fun c => CStr (String c EmptyString)) (String.list_ascii_of_string s))
  | Escalar _ => Raise TypeError
  end.

(** The call [maquina_turing_discreta(func, dominio, **kwargs)] of line 58:
    the whole dictionary is passed on, and the callee has no keyword
    parameter left but [maximizar] (its default is [True]). *)
Definition llamar_discreta (func : cand -> pyfloat) (dominio : pyobj)
    (kwargs : gmap string pyval) : comp cand (option cand * pyfloat) :=
  if decide (dom kwargs ⊆ ({["maximizar"%string]} : gset string)) then
    let maximizar := verdad (default (VBool true) (kwargs !! "maximizar"%string)) in
    xs ← puro (iterar dominio);
    maquina_turing_discreta func maximizar xs
  else raise TypeError.

Definition maquina_turing (func : cand -> pyfloat) (dominio : pyobj)
    (tipo : string) (kwargs : gmap string pyval)
  : comp cand (option cand * pyfloat) :=
  if String.eqb tipo "discreto" then
    llamar_discreta func dominio kwargs
  else if String.eqb tipo "continuo" then
    match dominio with
    | Tupla [a; b] =>
        let delta_x := default (VFloat (1 # 10)) (kwargs !! "delta_x"%string) in
        let refinamiento := default (VBool false) (kwargs !! "refinamiento"%string) in
        let iteraciones := default (VInt 1) (kwargs !! "iteraciones"%string) in
        let maximizar := default (VBool true) (kwargs !! "maximizar"%string) in
        n ← puro (indice iteraciones);
        maquina_turing_continua func (verdad maximizar) (verdad refinamiento)
          a b (numero delta_x) n
    | _ => raise ValueError
    end
  else raise ValueError.

(** ** Vocabulary of the statements *)

(** Python's [u <= v] on floats. *)
Definition fle (u v : pyfloat) : bool :=
  match u, v with
  | NaN, _ | _, NaN => false
  | NegInf, _ => true
  | _, PosInf => true
  | Fin p, Fin q => Qle_bool p q
  | _, _ => false
  end.

(** Python's [u == v] on floats. *)
Definition feq (u v : pyfloat) : bool :=
  match u, v with
  | NegInf, NegInf => true
  | PosInf, PosInf => true
  | Fin p, Fin q => Qeq_bool p q
  | _, _ => false
  end.

(** [mejor maximizar u v]: [u] is strictly better than [v] in the direction
    of the search, [u > v] when maximising and [u < v] when minimising. *)
Definition mejor (maximizar : bool) (u v : pyfloat) : bool :=
  if maximizar then fgt u v else flt u v.

(** [no_peor maximizar u v]: [u] is at least as good as [v], [u >= v] when
    maximising and [u <= v] when minimising. *)
Definition no_peor (maximizar : bool) (u v : pyfloat) : bool :=
  if maximizar then fle v u else fle u v.

(** The [i]-th point of the grid that starts at [a] with step [delta]. *)
Definition punto (a delta : Q) (i : nat) : Q :=
  a + inject_Z (Z.of_nat i) * delta.

(** The candidates of the round that starts in state [st]: the argument of
    the scan at line 37. *)
Definition rejilla (st : estado) : list cand :=
  map CNum (arange_values (st_a st) (st_b st + st_delta_x st) (st_delta_x st)).


(** Python's unary minus on floats: [-(-inf)] is [inf], [-nan] is [nan]. *)
Definition fneg (u : pyfloat) : pyfloat :=
  match u with
  | NegInf => PosInf
  | Fin q => Fin (- q)
  | PosInf => NegInf
  | NaN => NaN
  end.


(** The constant objectives and the parabola of the demonstration,
    [f(x) = -x^2 + 4x]. *)
Definition f_const (v : pyfloat) (X : Type) (_ : X) : pyfloat := v.

Definition f_parabola (c : cand) : pyfloat :=
  match c with
  | CNum x => Fin (Qred (- (x * x) + 4 * x))
  | CStr _ => NaN
  end.

(** * Properties *)

(** ** Order on floats *)

Lemma Qltb_lt (x y : Q) : Qltb x y = true <-> x < y.
Proof.
  unfold Qltb. rewrite negb_true_iff.
  destruct (Qle_bool y x) eqn:E.
  - apply Qle_bool_iff in E. split; [discriminate | lra].
  - split; [intros _ | reflexivity].
    destruct (Qlt_le_dec x y) as [H | H]; [exact H |].
    apply Qle_bool_iff in H. congruence.
Qed.

Lemma Qltb_ge (x y : Q) : Qltb x y = false <-> y <= x.
Proof.
  unfold Qltb. rewrite negb_false_iff. apply Qle_bool_iff.
Qed.

Ltac ordenQ :=
  repeat match goal with
    | H : Qltb _ _ = true |- _ => apply Qltb_lt in H
    | H : Qltb _ _ = false |- _ => apply Qltb_ge in H
    | H : Qle_bool _ _ = true |- _ => apply Qle_bool_iff in H
    | |- Qltb _ _ = true => apply Qltb_lt
    | |- Qltb _ _ = false => apply Qltb_ge
    | |- Qle_bool _ _ = true => apply Qle_bool_iff
    end;
  try lra.

Ltac casos_float :=
  intros;
  repeat match goal with
    | u : pyfloat |- _ => destruct u
    end;
  simpl in *; try congruence; try reflexivity; ordenQ.

Lemma flt_irrefl (u : pyfloat) : flt u u = false.
Proof. casos_float. Qed.

Lemma flt_trans (u v w : pyfloat) :
  flt u v = true -> flt v w = true -> flt u w = true.
Proof. casos_float. Qed.

Lemma flt_fle (u v : pyfloat) : flt u v = true -> fle u v = true.
Proof. casos_float. Qed.

Lemma fle_refl (u : pyfloat) : u <> NaN -> fle u u = true.
Proof. casos_float. Qed.

Lemma flt_false_fle (u v : pyfloat) :
  u <> NaN -> v <> NaN -> flt u v = false -> fle v u = true.
Proof. casos_float. Qed.

Lemma fle_flt_trans (u v w : pyfloat) :
  fle u v = true -> flt v w = true -> flt u w = true.
Proof. casos_float. Qed.

Lemma flt_fle_trans (u v w : pyfloat) :
  flt u v = true -> fle v w = true -> flt u w = true.
Proof. casos_float. Qed.

Lemma flt_no_nan (u v : pyfloat) : flt u v = true -> u <> NaN /\ v <> NaN.
Proof. casos_float; split; discriminate. Qed.

Lemma flt_no_feq (u v : pyfloat) :
  flt u v = true -> feq u v = false /\ feq v u = false.
Proof.
  casos_float; split; try reflexivity;
    apply not_true_is_false; intros E; apply Qeq_bool_iff in E; lra.
Qed.

Lemma feq_nan_l (v : pyfloat) : feq NaN v = false.
Proof. reflexivity. Qed.

(** The test of the scan is [mejor]. *)
Lemma mejora_mejor (mx : bool) (u v : pyfloat) : mejora mx u v = mejor mx u v.
Proof. unfold mejora, mejor. destruct mx; simpl; [apply orb_false_r | reflexivity]. Qed.

Lemma mejor_trans (mx : bool) (u v w : pyfloat) :
  mejor mx u v = true -> mejor mx v w = true -> mejor mx u w = true.
Proof.
  destruct mx; unfold mejor, fgt; intros H1 H2; eauto using flt_trans.
Qed.

(** [v] does not improve on [w], and [u] does: then [u] improves on [v]. *)
Lemma mejor_sobre_no_mejor (mx : bool) (u v w : pyfloat) :
  v <> NaN -> w <> NaN ->
  mejor mx v w = false -> mejor mx u w = true -> mejor mx u v = true.
Proof.
  destruct mx; unfold mejor, fgt; intros Hv Hw H1 H2.
  - eapply fle_flt_trans; [apply flt_false_fle; eauto | exact H2].
  - eapply flt_fle_trans; [exact H2 | apply flt_false_fle; eauto].
Qed.

Lemma mejor_no_nan (mx : bool) (u v : pyfloat) :
  mejor mx u v = true -> u <> NaN /\ v <> NaN.
Proof.
  destruct mx; unfold mejor, fgt; intros H; apply flt_no_nan in H; tauto.
Qed.

Lemma mejor_no_feq (mx : bool) (u v : pyfloat) :
  mejor mx u v = true -> feq v u = false.
Proof.
  destruct mx; unfold mejor, fgt; intros H; apply flt_no_feq in H; tauto.
Qed.

Lemma mejor_no_peor (mx : bool) (u v : pyfloat) :
  mejor mx u v = true -> no_peor mx u v = true.
Proof. destruct mx; unfold mejor, no_peor, fgt; apply flt_fle. Qed.

Lemma no_mejor_no_peor (mx : bool) (u v : pyfloat) :
  u <> NaN -> v <> NaN -> mejor mx u v = false -> no_peor mx v u = true.
Proof.
  destruct mx; unfold mejor, no_peor, fgt; intros; apply flt_false_fle; auto.
Qed.

Lemma no_peor_refl (mx : bool) (u : pyfloat) : u <> NaN -> no_peor mx u u = true.
Proof. destruct mx; apply fle_refl. Qed.

Lemma mejor_centinela (mx : bool) (u : pyfloat) :
  u <> NaN -> u <> centinela mx -> mejor mx u (centinela mx) = true.
Proof. destruct mx, u; simpl; congruence. Qed.

Lemma centinela_no_nan (mx : bool) : centinela mx <> NaN.
Proof. destruct mx; discriminate. Qed.

(** ** The discrete scanner *)

Section DiscretaProps.
Context {X : Type}.
Variable func : X -> pyfloat.
Variable maximizar : bool.

Lemma recorrer_cons (x : X) (resto : list X) (x_opt : option X) (f_opt : pyfloat) :
  recorrer func maximizar (x :: resto) x_opt f_opt =
  let r := if mejor maximizar (func x) f_opt
           then recorrer func maximizar resto (Some x) (func x)
           else recorrer func maximizar resto x_opt f_opt in
  (x :: evaluaciones r, resultado r).
Proof.
  simpl. unfold mbind, comp_bind, bind, call. rewrite mejora_mejor.
  destruct (mejor maximizar (func x) f_opt);
    match goal with |- context [recorrer ?f ?m ?l ?a ?b] =>
      destruct (recorrer f m l a b) end; reflexivity.
Qed.

(** The scan evaluates the objective once on every candidate, in order. *)
Lemma recorrer_evaluaciones (dominio : list X) :
  forall x_opt f_opt,
    evaluaciones (recorrer func maximizar dominio x_opt f_opt) = dominio.
Proof.
  induction dominio as [| x resto IH]; intros x_opt f_opt.
  - reflexivity.
  - rewrite recorrer_cons. cbn zeta.
    destruct (mejor maximizar (func x) f_opt); cbn [evaluaciones fst];
      f_equal; apply IH.
Qed.

(** What the loop leaves in [(x_opt, f_opt)]: either no candidate improved
    on the initial value and the pair is untouched, or the pair is a
    candidate [x] with its value, [x] improves on the initial value, is
    strictly better than every candidate before it whose value is a
    number, and no candidate after it is strictly better. *)
Lemma recorrer_spec (dominio : list X) :
  forall x_opt f_opt,
    f_opt <> NaN ->
    ((forall y, y ∈ dominio -> mejor maximizar (func y) f_opt = false) /\
     resultado (recorrer func maximizar dominio x_opt f_opt) = Return (x_opt, f_opt))
    \/
    (exists pre x post,
        dominio = pre ++ x :: post /\
        resultado (recorrer func maximizar dominio x_opt f_opt) = Return (Some x, func x) /\
        mejor maximizar (func x) f_opt = true /\
        (forall y, y ∈ pre -> func y <> NaN ->
                   mejor maximizar (func x) (func y) = true) /\
        (forall y, y ∈ post -> mejor maximizar (func y) (func x) = false)).
Proof.
  induction dominio as [| x resto IH]; intros x_opt f_opt Hf.
  - left. split; [intros y Hy; inversion Hy | reflexivity].
  - rewrite recorrer_cons. cbn zeta.
    destruct (mejor maximizar (func x) f_opt) eqn:E; cbn [resultado snd].
    + right.
      assert (Hx : func x <> NaN) by (apply mejor_no_nan in E; tauto).
      destruct (IH (Some x) (func x) Hx)
        as [[Hno Hr] | (pre & x' & post & -> & Hr & Hb & Hpre & Hpost)].
      * exists [], x, resto. repeat split; auto.
        intros y Hy; inversion Hy.
      * exists (x :: pre), x', post. repeat split; auto.
        -- eapply mejor_trans; eauto.
        -- intros y Hy Hn. apply elem_of_cons in Hy as [-> | Hy]; auto.
    + destruct (IH x_opt f_opt Hf)
        as [[Hno Hr] | (pre & x' & post & -> & Hr & Hb & Hpre & Hpost)].
      * left. split; auto.
        intros y Hy. apply elem_of_cons in Hy as [-> | Hy]; auto.
      * right. exists (x :: pre), x', post. repeat split; auto.
        intros y Hy Hn. apply elem_of_cons in Hy as [-> | Hy]; auto.
        apply (mejor_sobre_no_mejor maximizar (func x') (func x) f_opt); auto.
Qed.

(** The scan never raises. *)
Lemma recorrer_retorna (dominio : list X) :
  forall x_opt f_opt,
  exists r, resultado (recorrer func maximizar dominio x_opt f_opt) = Return r.
Proof.
  induction dominio as [| x resto IH]; intros x_opt f_opt.
  - eexists; reflexivity.
  - rewrite recorrer_cons. cbn zeta.
    destruct (mejor maximizar (func x) f_opt); cbn [resultado snd]; apply IH.
Qed.

Lemma discreta_evaluaciones (dominio : list X) :
  evaluaciones (maquina_turing_discreta func maximizar dominio) = dominio.
Proof. apply recorrer_evaluaciones. Qed.

(** The scan of a sequence on which the objective takes some value that
    is a number other than the initial value. *)
Lemma discreta_spec (dominio : list X) :
  (exists y, y ∈ dominio /\ func y <> NaN /\ func y <> centinela maximizar) ->
  exists pre x post,
    dominio = pre ++ x :: post /\
    resultado (maquina_turing_discreta func maximizar dominio) = Return (Some x, func x) /\
    func x <> NaN /\
    (forall y, y ∈ pre -> func y <> NaN ->
               mejor maximizar (func x) (func y) = true) /\
    (forall y, y ∈ post -> mejor maximizar (func y) (func x) = false).
Proof.
  intros (y & Hy & Hn & Hc). unfold maquina_turing_discreta.
  destruct (recorrer_spec dominio None (centinela maximizar)
              (centinela_no_nan maximizar))
    as [[Hno _] | (pre & x & post & Hd & Hr & Hb & Hpre & Hpost)].
  - specialize (Hno y Hy).
    rewrite mejor_centinela in Hno by auto. discriminate.
  - exists pre, x, post. apply mejor_no_nan in Hb. tauto.
Qed.
End DiscretaProps.

Ltac en_lista H :=
  repeat (apply elem_of_cons in H as [-> | H]); [.. | inversion H].

(** C1 (amended). When the objective takes on the candidates some value that
    is a number other than the initial value of the running best ([-inf]
    when maximising, [inf] when minimising), the scan evaluates every
    candidate once, in order, and returns a candidate [x] with its value
    [func x]. When maximising, every value of the objective on the sequence
    that is a number is [<= func x], and no candidate before [x] has the
    value [func x]: [func x] is the maximum and [x] the first candidate that
    reaches it. When minimising the same holds with [>=]. *)
Theorem discreta_optimo {X : Type} (func : X -> pyfloat) (maximizar : bool)
    (dominio : list X) :
  (exists y, y ∈ dominio /\ func y <> NaN /\ func y <> centinela maximizar) ->
  exists pre x post,
    dominio = pre ++ x :: post /\
    maquina_turing_discreta func maximizar dominio
      = (dominio, Return (Some x, func x)) /\
    func x <> NaN /\
    (forall y, y ∈ pre -> feq (func y) (func x) = false) /\
    if maximizar
    then forall y, y ∈ dominio -> func y <> NaN -> fle (func y) (func x) = true
    else forall y, y ∈ dominio -> func y <> NaN -> fle (func x) (func y) = true.
Proof.
  intros Hex.
  destruct (discreta_spec func maximizar dominio Hex)
    as (pre & x & post & Hd & Hr & Hx & Hpre & Hpost).
  exists pre, x, post. split; [exact Hd |]. split; [| split; [exact Hx | split]].
  - rewrite (surjective_pairing (maquina_turing_discreta func maximizar dominio)).
    f_equal; [apply discreta_evaluaciones | exact Hr].
  - intros y Hy. destruct (func y) eqn:Ey; try apply feq_nan_l;
      rewrite <- Ey; apply (mejor_no_feq maximizar), Hpre; auto; congruence.
  - assert (Hall : forall y, y ∈ dominio -> func y <> NaN ->
                             no_peor maximizar (func x) (func y) = true).
    { intros y Hy Hn. rewrite Hd in Hy.
      apply elem_of_app in Hy as [Hy | Hy];
        [| apply elem_of_cons in Hy as [-> | Hy]].
      - apply mejor_no_peor, Hpre; auto.
      - apply no_peor_refl, Hx.
      - apply no_mejor_no_peor; auto. }
    destruct maximizar; exact Hall.
Qed.

Lemma discreta_optimo_witness :
  exists pre x post,
    [CNum 0; CNum 1; CNum 2; CNum 3] = pre ++ x :: post /\
    maquina_turing_discreta f_parabola true [CNum 0; CNum 1; CNum 2; CNum 3]
      = ([CNum 0; CNum 1; CNum 2; CNum 3], Return (Some x, f_parabola x)) /\
    f_parabola x <> NaN /\
    (forall y, y ∈ pre -> feq (f_parabola y) (f_parabola x) = false) /\
    (forall y, y ∈ [CNum 0; CNum 1; CNum 2; CNum 3] -> f_parabola y <> NaN ->
               fle (f_parabola y) (f_parabola x) = true).
Proof.
  apply (discreta_optimo f_parabola true [CNum 0; CNum 1; CNum 2; CNum 3]).
  exists (CNum 1). split; [right; left | split; discriminate].
Defined.

(** C1 as stated fails for an objective that is constantly [-inf]: the only
    candidate reaches the maximum, and the scan returns no candidate. *)
Lemma discreta_optimo_centinela :
  [1] <> [] /\
  maquina_turing_discreta (f_const NegInf Q) true [1] = ([1], Return (None, NegInf)) /\
  ~ (exists x fx, x ∈ [1] /\
       resultado (maquina_turing_discreta (f_const NegInf Q) true [1])
       = Return (Some x, fx)).
Proof.
  split; [discriminate |]. split; [reflexivity |].
  intros (x & fx & _ & H). discriminate H.
Qed.

(** C4. On the empty sequence the scan evaluates nothing and returns, without
    raising, no candidate and the initial value: [-inf] when maximising and
    [inf] when minimising. *)
Theorem discreta_vacia {X : Type} (func : X -> pyfloat) (maximizar : bool) :
  maquina_turing_discreta func maximizar []
  = ([], Return (None, if maximizar then NegInf else PosInf)).
Proof. reflexivity. Qed.

(** C9 (amended). For an objective that is never [nan] on the candidates and
    takes on them some value other than the initial value of the running
    best, the scan returns a candidate of the sequence together with the
    objective's value at that candidate. *)
Theorem discreta_valor_de_candidato {X : Type} (func : X -> pyfloat)
    (maximizar : bool) (dominio : list X) :
  (forall y, y ∈ dominio -> func y <> NaN) ->
  (exists y, y ∈ dominio /\ func y <> centinela maximizar) ->
  exists x,
    x ∈ dominio /\
    resultado (maquina_turing_discreta func maximizar dominio)
    = Return (Some x, func x).
Proof.
  intros Hnan (y & Hy & Hc).
  destruct (discreta_spec func maximizar dominio)
    as (pre & x & post & Hd & Hr & _); [exists y; auto |].
  exists x. split; [| exact Hr].
  rewrite Hd. apply elem_of_app. right. left.
Qed.

Lemma discreta_valor_de_candidato_witness :
  exists x,
    x ∈ [CNum 3; CNum 1; CNum 2] /\
    resultado (maquina_turing_discreta f_parabola false [CNum 3; CNum 1; CNum 2])
    = Return (Some x, f_parabola x).
Proof.
  apply (discreta_valor_de_candidato f_parabola false [CNum 3; CNum 1; CNum 2]).
  - intros y Hy. en_lista Hy; discriminate.
  - exists (CNum 3). split; [left | discriminate].
Defined.

(** C9 as stated fails when minimising an objective that is constantly
    [inf]: no value is [nan], the sequence is not empty, and the scan returns
    no candidate, with the initial value. *)
Lemma discreta_valor_centinela :
  [0; 1] <> [] /\
  (forall y, y ∈ [0; 1] -> f_const PosInf Q y <> NaN) /\
  resultado (maquina_turing_discreta (f_const PosInf Q) false [0; 1])
  = Return (None, PosInf) /\
  ~ (exists x, x ∈ [0; 1] /\
       resultado (maquina_turing_discreta (f_const PosInf Q) false [0; 1])
       = Return (Some x, f_const PosInf Q x)).
Proof.
  split; [discriminate |]. split; [intros y _; discriminate |].
  split; [reflexivity |].
  intros (x & _ & H). discriminate H.
Qed.

(** ** The grid of a round *)

Lemma Qmult_pos_le (x y d : Q) : 0 < d -> x * d <= y * d -> x <= y.
Proof. intros Hd H. apply Qmult_le_r in H; assumption. Qed.

Lemma inject_nat_lt (i m : nat) :
  (i < m)%nat -> inject_Z (Z.of_nat i) + 1 <= inject_Z (Z.of_nat m).
Proof.
  intros H. change 1 with (inject_Z 1). rewrite <- inject_Z_plus.
  rewrite <- Zle_Qle. lia.
Qed.

Lemma inject_Z_pred (n : Z) : inject_Z (n - 1) == inject_Z n - 1.
Proof.
  unfold Z.sub. rewrite inject_Z_plus, inject_Z_opp.
  change (inject_Z 1) with 1. lra.
Qed.

(** With [a <= b] and a positive step, [np.arange(a, b + delta, delta)] has
    [m + 1] points, the last of which is the first grid point [>= b]. *)
Lemma arange_rejilla (a b delta : Q) :
  a <= b -> 0 < delta ->
  exists m : nat,
    arange_len a (b + delta) delta = S m /\
    b <= punto a delta m /\
    (forall i : nat, (i < m)%nat -> punto a delta i < b).
Proof.
  intros Hab Hd. unfold arange_len, punto.
  set (q := (b + delta - a) / delta).
  assert (Hq : q * delta == b + delta - a) by (unfold q; field; lra).
  pose proof (Qle_ceiling q) as Hup.
  pose proof (Qceiling_lt q) as Hlo.
  set (n := Qceiling q) in *.
  assert (H1 : 1 <= q) by (apply (Qmult_pos_le 1 q delta Hd); lra).
  assert (Hn : (1 <= n)%Z).
  { rewrite Zle_Qle. change (inject_Z 1) with 1. lra. }
  assert (Hm : inject_Z (Z.of_nat (Z.to_nat (n - 1))) == inject_Z n - 1).
  { rewrite Z2Nat.id by lia. apply inject_Z_pred. }
  rewrite inject_Z_pred in Hlo.
  exists (Z.to_nat (n - 1)). split; [lia |]. split.
  - rewrite Hm.
    assert (q * delta <= inject_Z n * delta)
      by (apply Qmult_le_compat_r; lra).
    lra.
  - intros i Hi. apply inject_nat_lt in Hi. rewrite Hm in Hi.
    assert ((inject_Z (Z.of_nat i) + 1) * delta <= (inject_Z n - 1) * delta)
      by (apply Qmult_le_compat_r; lra).
    assert ((inject_Z n - 1) * delta < q * delta)
      by (apply Qmult_lt_compat_r; lra).
    lra.
Qed.

(** ** The continuous refiner *)

Lemma bind_return {X A B} (l : list X) (a : A) (k : A -> comp X B) :
  bind (l, Return a) k = (l ++ evaluaciones (k a), resultado (k a)).
Proof. unfold bind. destruct (k a); reflexivity. Qed.

Lemma py_max_cotas (x y : Q) : x <= py_max x y /\ y <= py_max x y.
Proof. unfold py_max. destruct (Qltb x y) eqn:E; ordenQ. Qed.

Lemma py_min_cotas (x y : Q) : py_min x y <= x /\ py_min x y <= y.
Proof. unfold py_min. destruct (Qltb y x) eqn:E; ordenQ. Qed.

Lemma np_arange_ok (start stop step : Q) :
  ~ step == 0 -> np_arange start stop step = Return (arange_values start stop step).
Proof.
  intros H. unfold np_arange.
  destruct (Qeq_bool step 0) eqn:E; [| reflexivity].
  apply Qeq_bool_iff in E. contradiction.
Qed.

Section ContinuaProps.
Variable func : cand -> pyfloat.
Variable maximizar : bool.

Lemma discreta_forma (dominio : list cand) :
  exists r, maquina_turing_discreta func maximizar dominio = (dominio, Return r).
Proof.
  destruct (recorrer_retorna func maximizar dominio None (centinela maximizar))
    as [r Hr].
  exists r.
  rewrite (surjective_pairing (maquina_turing_discreta func maximizar dominio)).
  f_equal; [apply discreta_evaluaciones | exact Hr].
Qed.

(** A round with a non-zero step scans its grid; without refinement it
    only binds [(x_opt, f_opt)]; with refinement it needs a numeric
    [x_opt] and then clamps the interval around it and halves the step. *)
Lemma ronda_forma (refinamiento : bool) (st : estado) :
  ~ st_delta_x st == 0 ->
  exists r,
    maquina_turing_discreta func maximizar (rejilla st) = (rejilla st, Return r) /\
    ronda func maximizar refinamiento st =
    (rejilla st,
     if refinamiento then
       match fst r with
       | Some (CNum x) =>
           Return (Estado (py_max (st_a st) (x - st_delta_x st))
                          (py_min (st_b st) (x + st_delta_x st))
                          (st_delta_x st / 2) (Some r))
       | _ => Raise TypeError
       end
     else Return (Estado (st_a st) (st_b st) (st_delta_x st) (Some r))).
Proof.
  intros Hd. destruct (discreta_forma (rejilla st)) as [r Hr].
  exists r. split; [exact Hr |].
  unfold ronda, mbind, comp_bind, puro. rewrite np_arange_ok by exact Hd.
  rewrite bind_return. cbn [app].
  fold (rejilla st). rewrite Hr, bind_return.
  destruct refinamiento.
  - destruct r as [[[x | s] |] f_opt]; cbn; rewrite ?app_nil_r; reflexivity.
  - cbn. rewrite app_nil_r. reflexivity.
Qed.

(** With a zero step the round raises before any evaluation. *)
Lemma ronda_paso_cero (refinamiento : bool) (st : estado) :
  st_delta_x st == 0 ->
  ronda func maximizar refinamiento st = ([], Raise ZeroDivisionError).
Proof.
  intros Hd. unfold ronda, np_arange.
  apply Qeq_bool_iff in Hd. rewrite Hd. reflexivity.
Qed.

Lemma rondas_S (refinamiento : bool) (n : nat) (st : estado) :
  rondas func maximizar refinamiento (S n) st =
  bind (ronda func maximizar refinamiento st)
       (rondas func maximizar refinamiento n).
Proof. reflexivity. Qed.

Lemma continua_forma (refinamiento : bool) (a b delta_x : Q) (iteraciones : Z) :
  maquina_turing_continua func maximizar refinamiento a b delta_x iteraciones =
  bind (rondas func maximizar refinamiento (Z.to_nat iteraciones)
          (Estado a b delta_x None))
       (fun st => match ultimo st with
                  | Some r => ret r
                  | None => raise UnboundLocalError
                  end).
Proof. reflexivity. Qed.
End ContinuaProps.

Section Rondas.
Variable func : cand -> pyfloat.
Variable maximizar : bool.

(** Every completed refinement round leaves the interval inside the one it
    started from. *)
Lemma rondas_dentro (n : nat) :
  forall st0 st,
    resultado (rondas func maximizar true n st0) = Return st ->
    st_a st0 <= st_a st /\ st_b st <= st_b st0.
Proof.
  induction n as [| n IH]; intros st0 st H.
  - injection H as <-. split; apply Qle_refl.
  - rewrite rondas_S in H.
    destruct (Qeq_dec (st_delta_x st0) 0) as [Hz | Hz].
    + rewrite ronda_paso_cero in H by exact Hz. discriminate H.
    + destruct (ronda_forma func maximizar true st0 Hz) as (r & _ & Hr).
      rewrite Hr in H.
      destruct (fst r) as [[x | s] |]; try discriminate H.
      rewrite bind_return in H. cbn [resultado snd] in H.
      apply IH in H. cbn [st_a st_b] in H.
      pose proof (py_max_cotas (st_a st0) (x - st_delta_x st0)).
      pose proof (py_min_cotas (st_b st0) (x + st_delta_x st0)).
      lra.
Qed.

(** Without refinement, [n + 1] rounds scan the same grid [n + 1] times
    and end with the result of the first scan. *)
Lemma rondas_sin_refinar (n : nat) :
  forall st r,
    ~ st_delta_x st == 0 ->
    maquina_turing_discreta func maximizar (rejilla st) = (rejilla st, Return r) ->
    rondas func maximizar false (S n) st =
    (concat (replicate (S n) (rejilla st)),
     Return (Estado (st_a st) (st_b st) (st_delta_x st) (Some r))).
Proof.
  induction n as [| n IH]; intros st r Hz Hr.
  - rewrite rondas_S.
    destruct (ronda_forma func maximizar false st Hz) as (r' & Hr' & ->).
    rewrite Hr in Hr'. injection Hr' as <-.
    rewrite bind_return. cbn. rewrite !app_nil_r. reflexivity.
  - rewrite rondas_S.
    destruct (ronda_forma func maximizar false st Hz) as (r' & Hr' & ->).
    rewrite Hr in Hr'. injection Hr' as <-.
    rewrite bind_return.
    rewrite (IH (Estado (st_a st) (st_b st) (st_delta_x st) (Some r)) r Hz Hr).
    reflexivity.
Qed.
End Rondas.

(** C2. With a positive step, refinement disabled and one iteration, the
    continuous refiner is the discrete scanner applied to the grid
    [np.arange(a, b + delta_x, delta_x)], that is [a], [a + delta_x],
    [a + 2 delta_x], ...: same evaluations, same returned pair. (The bound
    [a <= b] of the claim is not needed.) *)
Theorem continua_una_ronda (func : cand -> pyfloat) (maximizar : bool)
    (a b delta_x : Q) :
  0 < delta_x ->
  maquina_turing_continua func maximizar false a b delta_x 1
  = maquina_turing_discreta func maximizar
      (map CNum (map (punto a delta_x)
                     (seq 0 (arange_len a (b + delta_x) delta_x)))).
Proof.
  intros Hd.
  assert (Hz : ~ st_delta_x (Estado a b delta_x None) == 0) by (cbn; lra).
  destruct (discreta_forma func maximizar (rejilla (Estado a b delta_x None)))
    as [r Hr].
  rewrite continua_forma. change (Z.to_nat 1) with 1%nat.
  rewrite (rondas_sin_refinar func maximizar 0 _ r Hz Hr), bind_return.
  cbn [ultimo resultado evaluaciones ret fst snd concat replicate].
  rewrite !app_nil_r. symmetry. exact Hr.
Qed.

Lemma continua_una_ronda_witness :
  maquina_turing_continua f_parabola true false 0 3 2 1
  = maquina_turing_discreta f_parabola true
      (map CNum (map (punto 0 2) (seq 0 (arange_len 0 (3 + 2) 2)))).
Proof.
  apply (continua_una_ronda f_parabola true 0 3 2). reflexivity.
Defined.

(** C5. With [a <= b] and a positive step (exact arithmetic), the candidates
    of a round are [a], [a + delta_x], ..., [a + m delta_x], where
    [a + m delta_x] is the first grid point [>= b]: the end bound given to
    [np.arange] is [b + delta_x], the last candidate is [>= b], every
    earlier one is [< b], and when [b] is a grid point it is the last
    candidate. *)
Theorem rejilla_de_ronda (func : cand -> pyfloat) (maximizar refinamiento : bool)
    (a b delta_x : Q) (r0 : option (option cand * pyfloat)) :
  a <= b -> 0 < delta_x ->
  exists m : nat,
    np_arange a (b + delta_x) delta_x
      = Return (map (punto a delta_x) (seq 0 (S m))) /\
    evaluaciones (ronda func maximizar refinamiento (Estado a b delta_x r0))
      = map CNum (map (punto a delta_x) (seq 0 (S m))) /\
    b <= punto a delta_x m /\
    (forall i : nat, (i < m)%nat -> punto a delta_x i < b) /\
    (forall k : nat, punto a delta_x k == b -> k = m).
Proof.
  intros Hab Hd.
  destruct (arange_rejilla a b delta_x Hab Hd) as (m & Hlen & Hlast & Hprev).
  assert (Hz : ~ delta_x == 0) by lra.
  exists m. split; [| split; [| split; [| split]]].
  - rewrite np_arange_ok by exact Hz. unfold arange_values. rewrite Hlen.
    reflexivity.
  - destruct (ronda_forma func maximizar refinamiento (Estado a b delta_x r0) Hz)
      as (r & _ & ->).
    cbn [evaluaciones fst]. unfold rejilla, arange_values. cbn [st_a st_b st_delta_x].
    rewrite Hlen. reflexivity.
  - exact Hlast.
  - exact Hprev.
  - intros k Hk.
    destruct (Nat.lt_trichotomy k m) as [Hlt | [Heq | Hgt]]; [| exact Heq |].
    + specialize (Hprev k Hlt). lra.
    + exfalso. apply inject_nat_lt in Hgt. unfold punto in *.
      assert ((inject_Z (Z.of_nat m) + 1) * delta_x <= inject_Z (Z.of_nat k) * delta_x)
        by (apply Qmult_le_compat_r; lra).
      lra.
Qed.

Lemma rejilla_de_ronda_witness :
  exists m : nat,
    np_arange 0 (4 + (1 # 2)) (1 # 2)
      = Return (map (punto 0 (1 # 2)) (seq 0 (S m))) /\
    evaluaciones (ronda f_parabola true true (Estado 0 4 (1 # 2) None))
      = map CNum (map (punto 0 (1 # 2)) (seq 0 (S m))) /\
    4 <= punto 0 (1 # 2) m /\
    (forall i : nat, (i < m)%nat -> punto 0 (1 # 2) i < 4) /\
    (forall k : nat, punto 0 (1 # 2) k == 4 -> k = m).
Proof.
  apply (rejilla_de_ronda f_parabola true true 0 4 (1 # 2) None);
    [discriminate | reflexivity].
Defined.

(** C6. With refinement enabled, in every state reached after [n] completed
    rounds from the interval [[a, b]], the current interval lies inside
    [[a, b]]; and a further round that completes scans the grid of the
    current interval, obtains a numeric [x_opt], moves the interval to
    [[max(a', x_opt - delta), min(b', x_opt + delta)]] (no wider than the
    current [[a', b']]) and halves the step. *)
Theorem refinamiento_intervalo (func : cand -> pyfloat) (maximizar : bool)
    (a b delta_x : Q) (n : nat) (st : estado) :
  resultado (rondas func maximizar true n (Estado a b delta_x None)) = Return st ->
  (a <= st_a st /\ st_b st <= b) /\
  forall st',
    resultado (ronda func maximizar true st) = Return st' ->
    exists x f_x,
      resultado (maquina_turing_discreta func maximizar (rejilla st))
        = Return (Some (CNum x), f_x) /\
      ultimo st' = Some (Some (CNum x), f_x) /\
      st_a st' = py_max (st_a st) (x - st_delta_x st) /\
      st_b st' = py_min (st_b st) (x + st_delta_x st) /\
      st_delta_x st' = st_delta_x st / 2 /\
      st_a st <= st_a st' /\ st_b st' <= st_b st.
Proof.
  intros H. split.
  - apply (rondas_dentro func maximizar n _ _ H).
  - intros st' H'.
    destruct (Qeq_dec (st_delta_x st) 0) as [Hz | Hz].
    + rewrite ronda_paso_cero in H' by exact Hz. discriminate H'.
    + destruct (ronda_forma func maximizar true st Hz) as (r & Hr & Hronda).
      rewrite Hronda in H'. cbn [resultado snd] in H'.
      destruct r as [[[x | s] |] f_x]; cbn [fst] in H'; try discriminate H'.
      injection H' as <-. exists x, f_x. rewrite Hr.
      cbn [resultado snd ultimo st_a st_b st_delta_x].
      pose proof (py_max_cotas (st_a st) (x - st_delta_x st)).
      pose proof (py_min_cotas (st_b st) (x + st_delta_x st)).
      repeat split; tauto.
Qed.

Lemma refinamiento_intervalo_witness :
  (0 <= 1 /\ 3 <= 4) /\
  forall st',
    resultado (ronda f_parabola true true (Estado 1 3 (1 # 2) (Some (Some (CNum 2), Fin 4))))
      = Return st' ->
    exists x f_x,
      resultado (maquina_turing_discreta f_parabola true
                   (rejilla (Estado 1 3 (1 # 2) (Some (Some (CNum 2), Fin 4)))))
        = Return (Some (CNum x), f_x) /\
      ultimo st' = Some (Some (CNum x), f_x) /\
      st_a st' = py_max 1 (x - (1 # 2)) /\
      st_b st' = py_min 3 (x + (1 # 2)) /\
      st_delta_x st' = (1 # 2) / 2 /\
      1 <= st_a st' /\ st_b st' <= 3.
Proof.
  apply (refinamiento_intervalo f_parabola true 0 4 1 1
           (Estado 1 3 (1 # 2) (Some (Some (CNum 2), Fin 4)))).
  reflexivity.
Defined.

(** C7. With a positive step and refinement disabled, [N >= 1] iterations
    return exactly the pair that one iteration returns; the [N] rounds
    repeat the evaluations of the first. (The bound [a <= b] of the claim is
    not needed.) *)
Theorem continua_sin_refinar_repite (func : cand -> pyfloat) (maximizar : bool)
    (a b delta_x : Q) (N : Z) :
  0 < delta_x -> (1 <= N)%Z ->
  resultado (maquina_turing_continua func maximizar false a b delta_x N)
  = resultado (maquina_turing_continua func maximizar false a b delta_x 1) /\
  evaluaciones (maquina_turing_continua func maximizar false a b delta_x N)
  = concat (replicate (Z.to_nat N)
      (evaluaciones (maquina_turing_continua func maximizar false a b delta_x 1))).
Proof.
  intros Hd HN.
  assert (Hz : ~ st_delta_x (Estado a b delta_x None) == 0) by (cbn; lra).
  destruct (discreta_forma func maximizar (rejilla (Estado a b delta_x None)))
    as [r Hr].
  rewrite !continua_forma. change (Z.to_nat 1) with 1%nat.
  destruct (Z.to_nat N) as [| n] eqn:En; [lia |].
  rewrite (rondas_sin_refinar func maximizar n _ r Hz Hr).
  rewrite (rondas_sin_refinar func maximizar 0 _ r Hz Hr).
  rewrite !bind_return.
  cbn [ultimo resultado evaluaciones ret fst snd].
  split; [reflexivity |].
  rewrite !app_nil_r. cbn [concat replicate]. rewrite !app_nil_r. reflexivity.
Qed.

Lemma continua_sin_refinar_repite_witness :
  resultado (maquina_turing_continua f_parabola true false 0 3 2 3)
  = resultado (maquina_turing_continua f_parabola true false 0 3 2 1) /\
  evaluaciones (maquina_turing_continua f_parabola true false 0 3 2 3)
  = concat (replicate (Z.to_nat 3)
      (evaluaciones (maquina_turing_continua f_parabola true false 0 3 2 1))).
Proof.
  apply (continua_sin_refinar_repite f_parabola true 0 3 2 3);
    [reflexivity | discriminate].
Defined.

(** C10. With [iteraciones <= 0] the loop body never runs: nothing is
    evaluated and the [return] raises [UnboundLocalError], whatever the
    other arguments; so a call that returns has [iteraciones >= 1]. *)
Theorem continua_sin_iteraciones (func : cand -> pyfloat)
    (maximizar refinamiento : bool) (a b delta_x : Q) (iteraciones : Z) :
  ((iteraciones <= 0)%Z ->
   maquina_turing_continua func maximizar refinamiento a b delta_x iteraciones
   = ([], Raise UnboundLocalError)) /\
  (forall r,
     resultado (maquina_turing_continua func maximizar refinamiento a b delta_x
                  iteraciones) = Return r ->
     (1 <= iteraciones)%Z).
Proof.
  assert (H0 : (iteraciones <= 0)%Z ->
               maquina_turing_continua func maximizar refinamiento a b delta_x
                 iteraciones = ([], Raise UnboundLocalError)).
  { intros Hi. rewrite continua_forma.
    replace (Z.to_nat iteraciones) with 0%nat by lia. reflexivity. }
  split; [exact H0 |].
  intros r Hr. destruct (Z_le_gt_dec iteraciones 0) as [Hi | Hi]; [| lia].
  rewrite (H0 Hi) in Hr. discriminate Hr.
Qed.

Lemma continua_sin_iteraciones_witness :
  maquina_turing_continua f_parabola true true 0 4 (1 # 10) 0
  = ([], Raise UnboundLocalError) /\
  (1 <= 2)%Z.
Proof.
  split.
  - apply (continua_sin_iteraciones f_parabola true true 0 4 (1 # 10) 0).
    discriminate.
  - apply (proj2 (continua_sin_iteraciones f_parabola true true 0 3 2 2)
             (Some (CNum (4 # 2)), Fin 4)).
    reflexivity.
Defined.

(** ** The dispatcher *)

(** C3. The dispatcher raises [ValueError], without evaluating the objective,
    when [tipo] is neither ["discreto"] nor ["continuo"] (the spec's
    "discrete" and "continuous"), and, for ["continuo"], when the domain is
    not a tuple of two elements. *)
Theorem maquina_turing_invalido (func : cand -> pyfloat) (dominio : pyobj)
    (tipo : string) (kwargs : gmap string pyval) :
  (tipo <> "discreto"%string -> tipo <> "continuo"%string ->
   maquina_turing func dominio tipo kwargs = ([], Raise ValueError)) /\
  ((forall a b, dominio <> Tupla [a; b]) ->
   maquina_turing func dominio "continuo" kwargs = ([], Raise ValueError)).
Proof.
  split.
  - intros Hd Hc. unfold maquina_turing.
    apply String.eqb_neq in Hd, Hc. rewrite Hd, Hc. reflexivity.
  - intros Hdom. unfold maquina_turing. cbn [String.eqb Ascii.eqb Bool.eqb].
    destruct dominio as [xs | xs | s | q]; try reflexivity.
    destruct xs as [| a [| b [| c xs]]]; try reflexivity.
    exfalso. apply (Hdom a b). reflexivity.
Qed.

Lemma maquina_turing_invalido_witness :
  maquina_turing f_parabola (Lista [1; 2; 3]) "bogus" ∅ = ([], Raise ValueError) /\
  maquina_turing f_parabola (Cadena "not-a-tuple") "continuo" ∅
  = ([], Raise ValueError).
Proof.
  split.
  - apply (maquina_turing_invalido f_parabola (Lista [1; 2; 3]) "bogus" ∅);
      discriminate.
  - apply (maquina_turing_invalido f_parabola (Cadena "not-a-tuple") "continuo" ∅).
    discriminate.
Defined.

(** C8 (amended). For ["discreto"] the dispatcher passes the whole
    dictionary of options on to the scanner. When [maximizar] is its only
    possible key, the result is the scan of the domain's candidates in the
    direction it gives ([True] when absent); when it holds any other key the
    call raises [TypeError] and the objective is never evaluated. *)
Theorem maquina_turing_discreto_kwargs (func : cand -> pyfloat) (dominio : pyobj)
    (kwargs : gmap string pyval) :
  ((forall k v, kwargs !! k = Some v -> k = "maximizar"%string) ->
   maquina_turing func dominio "discreto" kwargs
   = xs ← puro (iterar dominio);
     maquina_turing_discreta func
       (verdad (default (VBool true) (kwargs !! "maximizar"%string))) xs) /\
  (forall k v, kwargs !! k = Some v -> k <> "maximizar"%string ->
   maquina_turing func dominio "discreto" kwargs = ([], Raise TypeError)).
Proof.
  unfold maquina_turing. cbn [String.eqb Ascii.eqb Bool.eqb]. unfold llamar_discreta.
  split.
  - intros Hk.
    destruct (decide (dom kwargs ⊆ ({["maximizar"%string]} : gset string)))
      as [_ | Hno]; [reflexivity |].
    exfalso. apply Hno. intros k Hin.
    apply elem_of_dom in Hin as [v Hv]. apply elem_of_singleton. eauto.
  - intros k v Hv Hne.
    destruct (decide (dom kwargs ⊆ ({["maximizar"%string]} : gset string)))
      as [Hsub | _]; [| reflexivity].
    exfalso. apply Hne.
    apply (elem_of_singleton (C := gset string)), Hsub, elem_of_dom. eauto.
Qed.

Lemma maquina_turing_discreto_kwargs_witness :
  maquina_turing f_parabola (Lista [1; 2; 3]) "discreto"
    {["maximizar"%string := VBool false]}
  = ([CNum 1; CNum 2; CNum 3], Return (Some (CNum 1), Fin 3)) /\
  maquina_turing f_parabola (Lista [1; 2; 3]) "discreto"
    {["iteraciones"%string := VInt 3]}
  = ([], Raise TypeError).
Proof.
  split.
  - rewrite (proj1 (maquina_turing_discreto_kwargs f_parabola (Lista [1; 2; 3])
                      {["maximizar"%string := VBool false]})).
    + reflexivity.
    + intros k v Hk. apply lookup_singleton_Some in Hk as [<- _]. reflexivity.
  - apply (proj2 (maquina_turing_discreto_kwargs f_parabola (Lista [1; 2; 3])
                    {["iteraciones"%string := VInt 3]})
             "iteraciones"%string (VInt 3)).
    + apply lookup_singleton_eq.
    + discriminate.
Defined.

(** C8 as stated fails: with the extra key [delta_x] the discrete call
    raises [TypeError], and with that key removed it returns. *)
Lemma maquina_turing_discreto_clave_extra :
  maquina_turing f_parabola (Lista [1; 2; 3]) "discreto"
    {["delta_x"%string := VFloat (1 # 10)]}
  = ([], Raise TypeError) /\
  maquina_turing f_parabola (Lista [1; 2; 3]) "discreto"
    (delete "delta_x"%string {["delta_x"%string := VFloat (1 # 10)]})
  = ([CNum 1; CNum 2; CNum 3], Return (Some (CNum 2), Fin 4)).
Proof. split; vm_compute; reflexivity. Qed.

(** ** Refinement rounds complete on finite-valued objectives *)




Section Progreso.
Variable func : cand -> pyfloat.
Variable maximizar : bool.
Hypothesis func_finita : forall x : Q, exists q : Q, func (CNum x) = Fin q.


End Progreso.

(** ** The two runs of the demonstration *)

(** [f(x) = -x^2 + 4x] over the integers [-10 .. 10], maximising. *)
Example demo_discreta :
  resultado (maquina_turing f_parabola (Lista (map inject_Z (seqZ (-10) 21)))
               "discreto" {["maximizar"%string := VBool true]})
  = Return (Some (CNum 2), Fin 4).
Proof. vm_compute. reflexivity. Qed.

(** The same objective over [(0, 4)] with step [0.1], refinement and three
    iterations: in exact arithmetic the optimum [x = 2] is found. *)
Example demo_continua :
  exists x : Q,
    resultado (maquina_turing f_parabola (Tupla [0; 4]) "continuo"
                 (<["delta_x"%string := VFloat (1 # 10)]>
                    (<["refinamiento"%string := VBool true]>
                       (<["iteraciones"%string := VInt 3]>
                          {["maximizar"%string := VBool true]}))))
    = Return (Some (CNum x), Fin 4) /\ x == 2.
Proof. eexists. split; [vm_compute; reflexivity | reflexivity]. Qed.


(** * Further properties of the three functions *)

(** ** The discrete scanner *)


Lemma fle_antisym (u v : pyfloat) :
  fle u v = true -> fle v u = true -> feq u v = true.
Proof.
  casos_float. apply Qeq_bool_iff. lra.
Qed.

Lemma flt_fneg (u v : pyfloat) : flt (fneg u) (fneg v) = flt v u.
Proof.
  destruct u, v; cbn; try reflexivity.
  destruct (Qltb q0 q) eqn:E; ordenQ.
Qed.

Lemma mejor_fneg (mx : bool) (u v : pyfloat) :
  mejor (negb mx) (fneg u) (fneg v) = mejor mx u v.
Proof.
  destruct mx; unfold mejor, fgt; cbn [negb]; apply flt_fneg.
Qed.

Section DiscretaMas.
Context {X : Type}.
Variable func : X -> pyfloat.
Variable maximizar : bool.

Lemma recorrer_app (d1 d2 : list X) :
  forall x_opt f_opt,
    recorrer func maximizar (d1 ++ d2) x_opt f_opt =
    bind (recorrer func maximizar d1 x_opt f_opt)
         (fun r => recorrer func maximizar d2 (fst r) (snd r)).
Proof.
  induction d1 as [| x d1 IH]; intros x_opt f_opt.
  - cbn [app recorrer]. unfold mret, comp_ret, ret. rewrite bind_return.
    cbn [fst snd app]. destruct (recorrer func maximizar d2 x_opt f_opt).
    reflexivity.
  - cbn [app]. rewrite !recorrer_cons. cbn zeta.
    destruct (mejor maximizar (func x) f_opt); rewrite IH;
      match goal with |- context [bind (recorrer ?f ?m ?l ?a ?b) ?k] =>
        destruct (recorrer f m l a b) as [l1 [r1 | e1]] end;
      cbn [evaluaciones resultado fst snd]; rewrite ?bind_return;
      reflexivity.
Qed.

Lemma recorrer_fneg (dominio : list X) :
  forall x_opt f_opt r,
    resultado (recorrer func maximizar dominio x_opt f_opt) = Return r ->
    resultado (recorrer (fun x => fneg (func x)) (negb maximizar) dominio
                 x_opt (fneg f_opt))
    = Return (fst r, fneg (snd r)).
Proof.
  induction dominio as [| x resto IH]; intros x_opt f_opt r.
  - cbn. intros [= <-]. reflexivity.
  - rewrite !recorrer_cons. cbn zeta. rewrite mejor_fneg.
    destruct (mejor maximizar (func x) f_opt); cbn [resultado snd]; apply IH.
Qed.
End DiscretaMas.

Lemma no_peor_antisym (mx : bool) (u v : pyfloat) :
  no_peor mx u v = true -> no_peor mx v u = true -> feq u v = true.
Proof.
  destruct mx; unfold no_peor; intros H1 H2; apply fle_antisym; assumption.
Qed.

(** The candidate the scan returns is at least as good as every candidate
    whose value is a number. *)
Lemma discreta_spec_cota {X : Type} (func : X -> pyfloat) (maximizar : bool)
    (dominio : list X) :
  (exists y, y ∈ dominio /\ func y <> NaN /\ func y <> centinela maximizar) ->
  exists x,
    x ∈ dominio /\
    resultado (maquina_turing_discreta func maximizar dominio) = Return (Some x, func x) /\
    func x <> NaN /\
    (forall y, y ∈ dominio -> func y <> NaN ->
               no_peor maximizar (func x) (func y) = true).
Proof.
  intros Hex.
  destruct (discreta_spec func maximizar dominio Hex)
    as (pre & x & post & Hd & Hr & Hx & Hpre & Hpost).
  exists x. split; [rewrite Hd; apply elem_of_app; right; left |].
  split; [exact Hr |]. split; [exact Hx |].
  intros y Hy Hn. rewrite Hd in Hy.
  apply elem_of_app in Hy as [Hy | Hy];
    [| apply elem_of_cons in Hy as [-> | Hy]].
  - apply mejor_no_peor, Hpre; auto.
  - apply no_peor_refl, Hx.
  - apply no_mejor_no_peor; auto.
Qed.

(** X1. The scan calls the objective exactly once on every candidate, in
    the order of the sequence, whatever the values are (there is no early
    exit), and it returns. *)
Theorem discreta_evalua_cada_candidato {X : Type} (func : X -> pyfloat)
    (maximizar : bool) (dominio : list X) :
  exists r, maquina_turing_discreta func maximizar dominio = (dominio, Return r).
Proof.
  destruct (recorrer_retorna func maximizar dominio None (centinela maximizar))
    as [r Hr].
  exists r.
  rewrite (surjective_pairing (maquina_turing_discreta func maximizar dominio)).
  f_equal; [apply discreta_evaluaciones | exact Hr].
Qed.

(** X2. What the scan can return: either no candidate, with the initial
    value untouched, and then no candidate's value is strictly better than
    the initial value; or a candidate of the sequence with the objective's
    value at it, and that value is a number strictly better than the initial
    value. A candidate whose value is [nan] is never returned. *)
Theorem discreta_seleccion {X : Type} (func : X -> pyfloat) (maximizar : bool)
    (dominio : list X) :
  exists x_opt f_opt,
    resultado (maquina_turing_discreta func maximizar dominio)
      = Return (x_opt, f_opt) /\
    match x_opt with
    | None =>
        f_opt = centinela maximizar /\
        forall y, y ∈ dominio ->
                  mejor maximizar (func y) (centinela maximizar) = false
    | Some x =>
        x ∈ dominio /\ f_opt = func x /\ func x <> NaN /\
        mejor maximizar (func x) (centinela maximizar) = true
    end.
Proof.
  unfold maquina_turing_discreta.
  destruct (recorrer_spec func maximizar dominio None (centinela maximizar)
              (centinela_no_nan maximizar))
    as [[Hno Hr] | (pre & x & post & Hd & Hr & Hb & _)].
  - exists None, (centinela maximizar). auto.
  - exists (Some x), (func x). split; [exact Hr |].
    split; [rewrite Hd; apply elem_of_app; right; left |].
    split; [reflexivity |].
    split; [apply mejor_no_nan in Hb; tauto | exact Hb].
Qed.

(** X3. Scanning a concatenation is scanning the first part and then
    continuing the loop over the second part from the pair the first scan
    ended with: evaluations and outcome are the same. *)
Theorem discreta_concatenacion {X : Type} (func : X -> pyfloat)
    (maximizar : bool) (d1 d2 : list X) :
  maquina_turing_discreta func maximizar (d1 ++ d2) =
  r ← maquina_turing_discreta func maximizar d1;
  recorrer func maximizar d2 (fst r) (snd r).
Proof.
  unfold maquina_turing_discreta. apply recorrer_app.
Qed.

(** X4. Minimising is maximising the negated objective: the scan of
    [-func] in the opposite direction evaluates the same candidates and
    returns the same candidate, with the negated value. *)
Theorem discreta_dualidad {X : Type} (func : X -> pyfloat) (maximizar : bool)
    (dominio : list X) :
  exists x_opt f_opt,
    maquina_turing_discreta func maximizar dominio
      = (dominio, Return (x_opt, f_opt)) /\
    maquina_turing_discreta (fun x => fneg (func x)) (negb maximizar) dominio
      = (dominio, Return (x_opt, fneg f_opt)).
Proof.
  destruct (recorrer_retorna func maximizar dominio None (centinela maximizar))
    as [[x_opt f_opt] Hr].
  exists x_opt, f_opt. split.
  - rewrite (surjective_pairing (maquina_turing_discreta func maximizar dominio)).
    f_equal; [apply discreta_evaluaciones | exact Hr].
  - rewrite (surjective_pairing
               (maquina_turing_discreta (fun x => fneg (func x)) (negb maximizar)
                  dominio)).
    f_equal; [apply discreta_evaluaciones |].
    unfold maquina_turing_discreta.
    replace (centinela (negb maximizar)) with (fneg (centinela maximizar))
      by (destruct maximizar; reflexivity).
    apply (recorrer_fneg func maximizar dominio None (centinela maximizar)
             (x_opt, f_opt) Hr).
Qed.

(** X5. Reordering the candidates can change which candidate wins a tie,
    not the optimum: when the objective takes on the candidates some value
    that is a number other than the initial value, the scans of a sequence
    and of any permutation of it both return a candidate, and the two
    returned values are equal numbers. *)
Theorem discreta_permutacion {X : Type} (func : X -> pyfloat) (maximizar : bool)
    (d1 d2 : list X) :
  d1 ≡ₚ d2 ->
  (exists y, y ∈ d1 /\ func y <> NaN /\ func y <> centinela maximizar) ->
  exists x1 x2,
    resultado (maquina_turing_discreta func maximizar d1) = Return (Some x1, func x1) /\
    resultado (maquina_turing_discreta func maximizar d2) = Return (Some x2, func x2) /\
    feq (func x1) (func x2) = true.
Proof.
  intros Hp Hex.
  assert (Hex2 : exists y, y ∈ d2 /\ func y <> NaN /\ func y <> centinela maximizar).
  { destruct Hex as (y & Hy & H). exists y. rewrite <- Hp. auto. }
  destruct (discreta_spec_cota func maximizar d1 Hex) as (x1 & Hin1 & Hr1 & Hn1 & Hb1).
  destruct (discreta_spec_cota func maximizar d2 Hex2) as (x2 & Hin2 & Hr2 & Hn2 & Hb2).
  exists x1, x2. split; [exact Hr1 |]. split; [exact Hr2 |].
  apply (no_peor_antisym maximizar).
  - apply Hb1; [rewrite Hp; exact Hin2 | exact Hn2].
  - apply Hb2; [rewrite <- Hp; exact Hin1 | exact Hn1].
Qed.

Lemma discreta_permutacion_witness :
  exists x1 x2,
    resultado (maquina_turing_discreta f_parabola true [CNum 1; CNum 3; CNum 0])
      = Return (Some x1, f_parabola x1) /\
    resultado (maquina_turing_discreta f_parabola true [CNum 3; CNum 0; CNum 1])
      = Return (Some x2, f_parabola x2) /\
    feq (f_parabola x1) (f_parabola x2) = true.
Proof.
  apply (discreta_permutacion f_parabola true
           [CNum 1; CNum 3; CNum 0] [CNum 3; CNum 0; CNum 1]).
  - apply (Permutation_cons_append [CNum 3; CNum 0] (CNum 1)).
  - exists (CNum 1). split; [left | split; discriminate].
Defined.

(** ** The continuous refiner *)

(** A scan in which no value is strictly better than the initial value
    returns no candidate. *)
Lemma discreta_sin_mejora {X : Type} (func : X -> pyfloat) (maximizar : bool)
    (dominio : list X) :
  (forall y, y ∈ dominio -> mejor maximizar (func y) (centinela maximizar) = false) ->
  maquina_turing_discreta func maximizar dominio
  = (dominio, Return (None, centinela maximizar)).
Proof.
  intros Hno.
  rewrite (surjective_pairing (maquina_turing_discreta func maximizar dominio)).
  f_equal; [apply discreta_evaluaciones |].
  unfold maquina_turing_discreta.
  destruct (recorrer_spec func maximizar dominio None (centinela maximizar)
              (centinela_no_nan maximizar))
    as [[_ Hr] | (pre & x & post & Hd & _ & Hb & _)]; [exact Hr |].
  rewrite Hno in Hb; [discriminate |].
  rewrite Hd. apply elem_of_app. right. left.
Qed.

(** The half-open sequence is empty when the end bound is not above the
    start. *)
Lemma arange_vacio (start stop step : Q) :
  0 < step -> stop <= start -> arange_values start stop step = [].
Proof.
  intros Hs Hle. unfold arange_values, arange_len.
  set (q := (stop - start) / step).
  assert (Hq : q * step == stop - start) by (unfold q; field; lra).
  assert (H0 : q <= 0) by (apply (Qmult_pos_le q 0 step Hs); lra).
  apply Qceiling_resp_le in H0. change (Qceiling 0) with 0%Z in H0.
  replace (Z.to_nat (Qceiling q)) with 0%nat by lia. reflexivity.
Qed.

Section SinMejora.
Variable func : cand -> pyfloat.
Variable maximizar : bool.

(** Rounds over a grid on which nothing improves on the initial value: the
    first refining round raises at [x_opt - delta_x]; rounds without
    refinement end with no candidate. *)
Lemma rondas_sin_mejora (n : nat) (st : estado) :
  ~ st_delta_x st == 0 ->
  (forall y, y ∈ rejilla st ->
             mejor maximizar (func y) (centinela maximizar) = false) ->
  rondas func maximizar true (S n) st = (rejilla st, Raise TypeError) /\
  resultado (rondas func maximizar false (S n) st)
  = Return (Estado (st_a st) (st_b st) (st_delta_x st)
              (Some (None, centinela maximizar))).
Proof.
  intros Hz Hno.
  pose proof (discreta_sin_mejora func maximizar (rejilla st) Hno) as Hd.
  split.
  - rewrite rondas_S.
    destruct (ronda_forma func maximizar true st Hz) as (r & Hr & ->).
    rewrite Hd in Hr. injection Hr as <-. reflexivity.
  - rewrite (rondas_sin_refinar func maximizar n st _ Hz Hd). reflexivity.
Qed.
End SinMejora.

(** X6. When no value of the objective on the first grid is strictly better
    than the initial value (all are [nan] or the initial value itself), a
    call with at least one iteration and refinement enabled scans that grid
    once and raises [TypeError] (at [x_opt - delta_x], [x_opt] being
    [None]); with refinement disabled it returns [None] with the initial
    value. *)
Theorem continua_sin_mejora (func : cand -> pyfloat) (maximizar : bool)
    (a b delta_x : Q) (iteraciones : Z) :
  ~ delta_x == 0 -> (1 <= iteraciones)%Z ->
  (forall y, y ∈ rejilla (Estado a b delta_x None) ->
             mejor maximizar (func y) (centinela maximizar) = false) ->
  maquina_turing_continua func maximizar true a b delta_x iteraciones
    = (rejilla (Estado a b delta_x None), Raise TypeError) /\
  resultado (maquina_turing_continua func maximizar false a b delta_x iteraciones)
    = Return (None, centinela maximizar).
Proof.
  intros Hz Hn Hno. rewrite !continua_forma.
  destruct (Z.to_nat iteraciones) as [| n] eqn:En; [lia |].
  destruct (rondas_sin_mejora func maximizar n (Estado a b delta_x None) Hz Hno)
    as [Ht Hf].
  split.
  - rewrite Ht. reflexivity.
  - destruct (rondas func maximizar false (S n) (Estado a b delta_x None))
      as [l [st |]]; cbn [resultado snd] in Hf; [| discriminate Hf].
    injection Hf as ->. rewrite bind_return. reflexivity.
Qed.

Lemma continua_sin_mejora_witness :
  maquina_turing_continua (f_const NaN cand) true true 0 1 (1 # 2) 3
    = (rejilla (Estado 0 1 (1 # 2) None), Raise TypeError) /\
  resultado (maquina_turing_continua (f_const NaN cand) true false 0 1 (1 # 2) 3)
    = Return (None, centinela true).
Proof.
  apply (continua_sin_mejora (f_const NaN cand) true 0 1 (1 # 2) 3).
  - discriminate.
  - discriminate.
  - intros y _. reflexivity.
Defined.

(** X7. An interval given the wrong way round, with [b + delta_x <= a] and
    a positive step, has an empty grid: with at least one iteration the
    objective is never evaluated, a refining call raises [TypeError] and a
    call without refinement returns [None] with the initial value. *)
Theorem continua_intervalo_invertido (func : cand -> pyfloat) (maximizar : bool)
    (a b delta_x : Q) (iteraciones : Z) :
  0 < delta_x -> b + delta_x <= a -> (1 <= iteraciones)%Z ->
  maquina_turing_continua func maximizar true a b delta_x iteraciones
    = ([], Raise TypeError) /\
  maquina_turing_continua func maximizar false a b delta_x iteraciones
    = ([], Return (None, centinela maximizar)).
Proof.
  intros Hd Hba Hn.
  assert (Hz : ~ st_delta_x (Estado a b delta_x None) == 0) by (cbn; lra).
  assert (Hg : rejilla (Estado a b delta_x None) = []).
  { unfold rejilla. cbn [st_a st_b st_delta_x].
    rewrite (arange_vacio a (b + delta_x) delta_x Hd Hba). reflexivity. }
  assert (Hno : forall y, y ∈ rejilla (Estado a b delta_x None) ->
                  mejor maximizar (func y) (centinela maximizar) = false).
  { rewrite Hg. intros y Hy. inversion Hy. }
  rewrite !continua_forma.
  destruct (Z.to_nat iteraciones) as [| n] eqn:En; [lia |].
  split.
  - rewrite (proj1 (rondas_sin_mejora func maximizar n _ Hz Hno)), Hg.
    reflexivity.
  - rewrite (rondas_sin_refinar func maximizar n _ (None, centinela maximizar) Hz
               (discreta_sin_mejora func maximizar _ Hno)).
    rewrite Hg, bind_return.
    cbn [ultimo evaluaciones resultado ret fst snd].
    rewrite app_nil_r. f_equal.
    clear. induction (S n) as [| m IH]; [reflexivity | exact IH].
Qed.

Lemma continua_intervalo_invertido_witness :
  maquina_turing_continua f_parabola true true 4 0 1 2 = ([], Raise TypeError) /\
  maquina_turing_continua f_parabola true false 4 0 1 2
    = ([], Return (None, centinela true)).
Proof.
  apply (continua_intervalo_invertido f_parabola true 4 0 1 2);
    [reflexivity | discriminate | discriminate].
Defined.

Section Rango.
Variable func : cand -> pyfloat.
Variable maximizar : bool.
Variable refinamiento : bool.
Hypothesis func_finita : forall x : Q, exists q : Q, func (CNum x) = Fin q.


End Rango.






Section Refinar.
Variable func : cand -> pyfloat.
Variable maximizar : bool.



End Refinar.





(** ** The dispatcher *)


(** X11. For ["continuo"] the dispatcher reads the four options it knows
    with their defaults and ignores every other key: adding an unknown key
    to the options changes neither the evaluations nor the outcome. *)
Theorem maquina_turing_continuo_ignora (func : cand -> pyfloat) (dominio : pyobj)
    (kwargs : gmap string pyval) (k : string) (v : pyval) :
  k <> "delta_x"%string -> k <> "refinamiento"%string ->
  k <> "iteraciones"%string -> k <> "maximizar"%string ->
  maquina_turing func dominio "continuo" (<[k := v]> kwargs)
  = maquina_turing func dominio "continuo" kwargs.
Proof.
  intros H1 H2 H3 H4. unfold maquina_turing.
  rewrite !lookup_insert_ne by auto. reflexivity.
Qed.

Lemma maquina_turing_continuo_ignora_witness :
  maquina_turing f_parabola (Tupla [0; 3]) "continuo"
    (<["tolerancia"%string := VFloat (1 # 100)]> {["delta_x"%string := VInt 2]})
  = maquina_turing f_parabola (Tupla [0; 3]) "continuo"
      {["delta_x"%string := VInt 2]}.
Proof.
  apply (maquina_turing_continuo_ignora f_parabola (Tupla [0; 3])
           {["delta_x"%string := VInt 2]} "tolerancia" (VFloat (1 # 100)));
    discriminate.
Defined.


(** ** Refinement keeps the incumbent *)




Section Incumbente.
Variable func : cand -> pyfloat.
Variable maximizar : bool.
Hypothesis func_finita : forall x : Q, exists q : Q, func (CNum x) = Fin q.
Hypothesis func_ext : forall x y : Q, x == y -> func (CNum x) = func (CNum y).


End Incumbente.


